(** * base_uom_converter: scale-based unit-of-measure conversion

    Shallow embedding of [UomConverter.convert]
    (src/base_uom_converter/models/uom_converter.py) and of the part of the
    record store it reads.

    Conventions of the model.
    - Python numbers are a tagged union: [PyInt] for [int] (what [ceil],
      [floor] and [round] return) and [PyFloat] for [float].  Floats are
      idealised as exact rationals: overflow, NaN and binary rounding of
      [*] and [+] are outside the model, and so are the errors [math.ceil],
      [math.floor] and [round] raise on a float that is not finite.
      [binary64_value] gives the exact rational behind a machine float, to
      check the documented examples on the products the interpreter really
      computes; [affine_binary64] and [round_binary64] are lines 124 and
      127-133 on machine floats, where overflow shows.
    - The ORM tables are lists of records held in a [World]; [convert] runs
      in a state-and-exception monad over that world, so that what it reads,
      what it leaves untouched and which calls it makes to the unit catalog
      are all visible in the result.
    - [uom.uom._compute_quantity] belongs to the unit catalog, not to this
      module: it is a parameter of the development. *)

From Stdlib Require Import ZArith QArith Qround Bool List String Lia.
From Stdlib Require Import PrimFloat FloatOps SpecFloat.
From Stdlib Require Import Lqa Permutation.
Import ListNotations.

Local Open Scope Z_scope.

(** ** Python numbers *)

Inductive number : Type :=
| PyInt (z : Z)
| PyFloat (q : Q).

Definition to_Q (v : number) : Q :=
  match v with
  | PyInt z => inject_Z z
  | PyFloat q => q
  end.

(** [a * b] and [a + b]: [int] with [int] stays [int], anything else is a
    [float]. *)
Definition number_mul (a b : number) : number :=
  match a, b with
  | PyInt x, PyInt y => PyInt (x * y)
  | _, _ => PyFloat (to_Q a * to_Q b)
  end.

Definition number_add (a b : number) : number :=
  match a, b with
  | PyInt x, PyInt y => PyInt (x + y)
  | _, _ => PyFloat (to_Q a + to_Q b)
  end.

(** [math.ceil] and [math.floor]: an [int] is returned as it is, a [float]
    becomes the [int] above, resp. below, it. *)
Definition py_ceil (v : number) : number :=
  match v with
  | PyInt z => PyInt z
  | PyFloat q => PyInt (Qceiling q)
  end.

Definition py_floor (v : number) : number :=
  match v with
  | PyInt z => PyInt z
  | PyFloat q => PyInt (Qfloor q)
  end.

(** The built-in [round] with one argument: nearest [int], a tie going to
    the even neighbour. *)
Definition round_half_even (q : Q) : Z :=
  let f := Qfloor q in
  match Qcompare (q - inject_Z f) (1 # 2) with
  | Lt => f
  | Gt => f + 1
  | Eq => if Z.even f then f else f + 1
  end.

Definition py_round (v : number) : number :=
  match v with
  | PyInt z => PyInt z
  | PyFloat q => PyInt (round_half_even q)
  end.

Definition is_int (v : number) : bool :=
  match v with
  | PyInt _ => true
  | PyFloat _ => false
  end.

(** The rational a finite binary64 float stands for; [None] for an
    infinity or a NaN. *)
Definition binary64_value (f : float) : option Q :=
  match Prim2SF f with
  | S754_zero _ => Some (0 # 1)
  | S754_finite s m e =>
      let magnitude :=
        if 0 <=? e
        then inject_Z (Z.pos m * 2 ^ e)
        else Z.pos m # Z.to_pos (2 ^ (- e)) in
      Some (if s then Qopp magnitude else magnitude)
  | S754_infinity _ => None
  | S754_nan => None
  end.

(** ** Records *)

(** [uom.category] and [uom.uom], as far as [convert] reads them. *)
Record UomCategory : Type := {
  categ_id : Z;
  categ_name : string
}.

Record Uom : Type := {
  uom_id : Z;
  uom_name : string;
  category_id : UomCategory
}.

(** The [round_method] selection: keys "none", "ceil", "round", "floor". *)
Inductive RoundMethod : Type :=
| rm_none
| rm_ceil
| rm_round
| rm_floor.

(** [uom.converter].  [line_ids] is the inverse of
    [uom.converter.line.uom_converter_id] and is not stored. *)
Record UomConverter : Type := {
  conv_id : Z;
  conv_name : string;
  from_uom_id : Uom;
  to_uom_id : Uom;
  round_method : RoundMethod;
  description : option string
}.

(** [uom.converter.line] *)
Record UomConverterLine : Type := {
  line_id : Z;
  uom_converter_id : Z;
  max_qty : Q;
  coefficient : Q;
  constant : Q
}.

(** ** Validation errors

    The three [ValidationError]s of [convert], each with the arguments of
    its message. *)
Inductive ValidationError : Type :=
| IncompatibleInputCategory (uom category to_uom converter : string)
| IncompatibleOutputCategory (uom to_uom expected_category converter : string)
| QuantityOutOfRange (quantity : number) (uom to_uom converter : string).

Definition is_incompatible_unit_category (e : ValidationError) : bool :=
  match e with
  | IncompatibleInputCategory _ _ _ _ => true
  | IncompatibleOutputCategory _ _ _ _ => true
  | QuantityOutOfRange _ _ _ _ => false
  end.


(** ** The world: record store and calls to the unit catalog *)

(** One call [from._compute_quantity(qty, to)]. *)
Record UomCall : Type := {
  call_from : Uom;
  call_qty : number;
  call_to : Uom
}.

Record World : Type := {
  uom_converter_table : list UomConverter;
  uom_converter_line_table : list UomConverterLine;
  uom_calls : list UomCall
}.

(** ** State-and-exception monad

    A computation takes the world and gives back either the raised error or
    the returned value, together with the world it leaves behind. *)
Definition M (A : Type) : Type := World -> (ValidationError + A) * World.

Definition ret {A : Type} (a : A) : M A := fun w => (inr a, w).

Definition bind {A B : Type} (m : M A) (k : A -> M B) : M B :=
  fun w =>
    match m w with
    | (inl e, w') => (inl e, w')
    | (inr a, w') => k a w'
    end.

Definition raise {A : Type} (e : ValidationError) : M A := fun w => (inl e, w).

Declare Scope conv_scope.
Delimit Scope conv_scope with conv.
Notation "x <- m ;; k" := (bind m (fun x => k))
  (at level 61, m at next level, right associativity) : conv_scope.
Notation "' pat <- m ;; k" := (bind m (fun x => match x with pat => k end))
  (at level 61, pat pattern, m at next level, right associativity) : conv_scope.

(** ** Searching [uom.converter.line] *)

(** The two leaves of the search domain used by [convert]:
    [("uom_converter_id", "=", cid)] and [("max_qty", ">=", q)]. *)
Inductive Leaf : Type :=
| uom_converter_id_eq (cid : Z)
| max_qty_ge (q : number).

Definition leaf_holds (line : UomConverterLine) (lf : Leaf) : bool :=
  match lf with
  | uom_converter_id_eq cid => uom_converter_id line =? cid
  | max_qty_ge q => Qle_bool (to_Q q) (max_qty line)
  end.

(** A domain is the conjunction of its leaves. *)
Definition domain_holds (domain : list Leaf) (line : UomConverterLine) : bool :=
  forallb (leaf_holds line) domain.

(** [order="max_qty"]: ascending.  The database leaves the order of lines
    with equal [max_qty] open; the model keeps them in table order. *)
Fixpoint insert_by_max_qty (line : UomConverterLine)
    (sorted : list UomConverterLine) : list UomConverterLine :=
  match sorted with
  | [] => [line]
  | x :: rest =>
      if Qle_bool (max_qty line) (max_qty x)
      then line :: sorted
      else x :: insert_by_max_qty line rest
  end.

Fixpoint order_by_max_qty (lines : list UomConverterLine) : list UomConverterLine :=
  match lines with
  | [] => []
  | x :: rest => insert_by_max_qty x (order_by_max_qty rest)
  end.

(** [search(domain, order="max_qty", limit=n)] on a table. *)
Definition search_lines (table : list UomConverterLine) (domain : list Leaf)
    (limit : nat) : list UomConverterLine :=
  firstn limit (order_by_max_qty (filter (domain_holds domain) table)).

Definition search (domain : list Leaf) (limit : nat) : M (list UomConverterLine) :=
  fun w => (inr (search_lines (uom_converter_line_table w) domain limit), w).

(** ** Rounding (lines 127-132 of [convert]) *)

Definition apply_round_method (m : RoundMethod) (result : number) : number :=
  match m with
  | rm_ceil => py_ceil result
  | rm_floor => py_floor result
  | rm_round => py_round result
  | rm_none => result
  end.

(** ** Lines 124 and 127-133 on machine floats

    The exact arithmetic above has no overflow, and [py_ceil], [py_floor]
    and [py_round] never raise.  The interpreter computes line 124 in
    binary64, and [math.ceil], [math.floor] and [round] raise on a float
    that is not finite.  The definitions below are those lines on binary64,
    for a quantity given as a float and a result that needs no conversion
    to another unit. *)







(** ** [UomConverter.convert] *)

Section Convert.

(** The unit catalog: [uom_service u qty to] is what
    [u._compute_quantity(qty, to)] returns for two units of one category. *)
Variable uom_service : Uom -> number -> Uom -> number.

Definition _compute_quantity (u : Uom) (qty : number) (to_unit : Uom) : M number :=
  fun w =>
    (inr (uom_service u qty to_unit),
     {| uom_converter_table := uom_converter_table w;
        uom_converter_line_table := uom_converter_line_table w;
        uom_calls :=
          uom_calls w
          ++ [{| call_from := u; call_qty := qty; call_to := to_unit |}] |}).

Local Open Scope conv_scope.

(** [self] is one converter ([ensure_one]); a unit that is omitted, or an
    empty recordset, is [None]. *)
Definition convert (self : UomConverter) (quantity : number)
    (uom_qty result_uom : option Uom) : M number :=
  '(uom_qty, quantity) <-
    match uom_qty with
    | None => ret (from_uom_id self, quantity)
    | Some uom_qty =>
        if negb (categ_id (category_id uom_qty)
                 =? categ_id (category_id (from_uom_id self)))
        then raise (IncompatibleInputCategory
                      (uom_name uom_qty)
                      (categ_name (category_id (from_uom_id self)))
                      (uom_name (to_uom_id self))
                      (conv_name self))
        else if negb (uom_id uom_qty =? uom_id (from_uom_id self))
        then quantity <- _compute_quantity uom_qty quantity (from_uom_id self) ;;
             ret (uom_qty, quantity)
        else ret (uom_qty, quantity)
    end ;;
  result_uom <-
    match result_uom with
    | None => ret (to_uom_id self)
    | Some result_uom =>
        if negb (categ_id (category_id result_uom)
                 =? categ_id (category_id (to_uom_id self)))
        then raise (IncompatibleOutputCategory
                      (uom_name uom_qty)
                      (uom_name result_uom)
                      (categ_name (category_id (to_uom_id self)))
                      (conv_name self))
        else ret result_uom
    end ;;
  convert_line <-
    search [uom_converter_id_eq (conv_id self); max_qty_ge quantity] 1 ;;
  match convert_line with
  | [] =>
      raise (QuantityOutOfRange quantity
               (uom_name uom_qty) (uom_name result_uom) (conv_name self))
  | line :: _ =>
      let result :=
        number_add (number_mul quantity (PyFloat (coefficient line)))
                   (PyFloat (constant line)) in
      result <-
        (if negb (uom_id result_uom =? uom_id (to_uom_id self))
         then _compute_quantity (to_uom_id self) result result_uom
         else ret result) ;;
      ret (apply_round_method (round_method self) result)
  end.

End Convert.

(** ** Derived notions used to state the properties *)

(** The category checks of lines 75 and 94; an omitted unit passes. *)
Definition input_unit_ok (self : UomConverter) (uom_qty : option Uom) : bool :=
  match uom_qty with
  | None => true
  | Some u => categ_id (category_id u) =? categ_id (category_id (from_uom_id self))
  end.

Definition output_unit_ok (self : UomConverter) (result_uom : option Uom) : bool :=
  match result_uom with
  | None => true
  | Some r => categ_id (category_id r) =? categ_id (category_id (to_uom_id self))
  end.

(** The unit the quantity is expressed in and the unit asked for, after
    the defaults of lines 73 and 92. *)
Definition given_uom (self : UomConverter) (uom_qty : option Uom) : Uom :=
  match uom_qty with
  | None => from_uom_id self
  | Some u => u
  end.

Definition wanted_uom (self : UomConverter) (result_uom : option Uom) : Uom :=
  match result_uom with
  | None => to_uom_id self
  | Some r => r
  end.

(** The quantity after lines 72-90, the input check having passed. *)
Definition normalized_quantity (uom_service : Uom -> number -> Uom -> number)
    (self : UomConverter) (quantity : number) (uom_qty : option Uom) : number :=
  match uom_qty with
  | None => quantity
  | Some u =>
      if negb (uom_id u =? uom_id (from_uom_id self))
      then uom_service u quantity (from_uom_id self)
      else quantity
  end.

(** Lines 124: the affine map of a scale line. *)
Definition affine (line : UomConverterLine) (quantity : number) : number :=
  number_add (number_mul quantity (PyFloat (coefficient line)))
             (PyFloat (constant line)).

(** Lines 125-126: the result in the unit asked for. *)
Definition denormalized (uom_service : Uom -> number -> Uom -> number)
    (self : UomConverter) (result_uom : option Uom) (result : number) : number :=
  match result_uom with
  | None => result
  | Some r =>
      if negb (uom_id r =? uom_id (to_uom_id self))
      then uom_service (to_uom_id self) result r
      else result
  end.

(** The record found by the search of lines 106-110, if any. *)
Definition selected_line (w : World) (self : UomConverter) (quantity : number)
    : option UomConverterLine :=
  hd_error (search_lines (uom_converter_line_table w)
              [uom_converter_id_eq (conv_id self); max_qty_ge quantity] 1).

(** A line of converter [self] whose bracket holds [quantity]. *)
Definition qualifies (self : UomConverter) (quantity : number)
    (line : UomConverterLine) : Prop :=
  uom_converter_id line = conv_id self /\ (to_Q quantity <= max_qty line)%Q.

(** The calls to the unit catalog made while normalizing and while
    denormalizing. *)
Definition normalization_calls (self : UomConverter) (quantity : number)
    (uom_qty : option Uom) : list UomCall :=
  match uom_qty with
  | None => []
  | Some u =>
      if negb (uom_id u =? uom_id (from_uom_id self))
      then [{| call_from := u; call_qty := quantity; call_to := from_uom_id self |}]
      else []
  end.

Definition denormalization_calls (self : UomConverter) (result_uom : option Uom)
    (result : number) : list UomCall :=
  match result_uom with
  | None => []
  | Some r =>
      if negb (uom_id r =? uom_id (to_uom_id self))
      then [{| call_from := to_uom_id self; call_qty := result; call_to := r |}]
      else []
  end.

Definition log_calls (w : World) (calls : list UomCall) : World :=
  {| uom_converter_table := uom_converter_table w;
     uom_converter_line_table := uom_converter_line_table w;
     uom_calls := uom_calls w ++ calls |}.

Definition set_round_method (m : RoundMethod) (self : UomConverter) : UomConverter :=
  {| conv_id := conv_id self;
     conv_name := conv_name self;
     from_uom_id := from_uom_id self;
     to_uom_id := to_uom_id self;
     round_method := m;
     description := description self |}.

(** Unfolding a run of [convert] down to its tests. *)
Ltac run_convert :=
  unfold convert, bind, ret, raise, search, _compute_quantity, selected_line,
    input_unit_ok, output_unit_ok, given_uom, wanted_uom,
    normalized_quantity, normalization_calls, denormalized,
    denormalization_calls, affine in *.

(** ** Sample data *)

Module Sample.

Local Open Scope string_scope.

Definition weight : UomCategory := {| categ_id := 2; categ_name := "Weight" |}.
Definition unit : UomCategory := {| categ_id := 1; categ_name := "Unit" |}.
Definition volume : UomCategory := {| categ_id := 5; categ_name := "Volume" |}.

Definition gram : Uom := {| uom_id := 13; uom_name := "g"; category_id := weight |}.
Definition kilogram : Uom := {| uom_id := 12; uom_name := "kg"; category_id := weight |}.
Definition egg : Uom := {| uom_id := 1; uom_name := "Units"; category_id := unit |}.
Definition dozen : Uom := {| uom_id := 2; uom_name := "Dozens"; category_id := unit |}.
Definition litre : Uom := {| uom_id := 10; uom_name := "L"; category_id := volume |}.

(** How many reference units (gram, egg, litre) one unit is worth. *)
Definition ratio (u : Uom) : Q :=
  if Z.eqb (uom_id u) 12 then 1000 # 1
  else if Z.eqb (uom_id u) 2 then 12 # 1
  else 1 # 1.

(** A unit catalog: linear conversion through the reference unit. *)
Definition catalog (u : Uom) (qty : number) (to_unit : Uom) : number :=
  PyFloat (to_Q qty * ratio u / ratio to_unit).

(** The converter of the field help: one egg every 100 g of flour. *)
Definition flour_to_eggs (m : RoundMethod) : UomConverter :=
  {| conv_id := 1;
     conv_name := "flour to eggs";
     from_uom_id := gram;
     to_uom_id := egg;
     round_method := m;
     description := None |}.

Definition flour_line : UomConverterLine :=
  {| line_id := 1; uom_converter_id := 1;
     max_qty := 100000 # 1; coefficient := 1 # 100; constant := 0 # 1 |}.

Definition flour_world : World :=
  {| uom_converter_table := [flour_to_eggs rm_ceil];
     uom_converter_line_table := [flour_line];
     uom_calls := [] |}.

(** A converter with three brackets and a neighbour's line in the same
    table. *)
Definition parcels : UomConverter :=
  {| conv_id := 7;
     conv_name := "parcels";
     from_uom_id := kilogram;
     to_uom_id := egg;
     round_method := rm_none;
     description := None |}.

Definition parcel_lines : list UomConverterLine :=
  [ {| line_id := 4; uom_converter_id := 7;
       max_qty := 50 # 1; coefficient := 1 # 2; constant := 3 # 1 |};
    {| line_id := 2; uom_converter_id := 7;
       max_qty := 5 # 1; coefficient := 1 # 1; constant := 0 # 1 |};
    {| line_id := 9; uom_converter_id := 1;
       max_qty := 1 # 1; coefficient := 7 # 1; constant := 7 # 1 |};
    {| line_id := 3; uom_converter_id := 7;
       max_qty := 20 # 1; coefficient := 3 # 4; constant := 1 # 1 |} ].

Definition parcel_world : World :=
  {| uom_converter_table := [parcels];
     uom_converter_line_table := parcel_lines;
     uom_calls := [] |}.

End Sample.

(** * Properties *)

(** ** The world after a run *)

Lemma log_calls_nil (w : World) : log_calls w [] = w.
Proof.
  destruct w as [cs ls calls]. unfold log_calls. simpl.
  now rewrite app_nil_r.
Qed.

Lemma log_calls_app (w : World) (a b : list UomCall) :
  log_calls (log_calls w a) b = log_calls w (a ++ b).
Proof.
  unfold log_calls. simpl. now rewrite app_assoc.
Qed.

(** ** The four ways a run of [convert] ends *)

Section Outcomes.

Variable uom_service : Uom -> number -> Uom -> number.
Variable self : UomConverter.
Variable quantity : number.
Variables uom_qty result_uom : option Uom.
Variable w : World.

Lemma convert_input_mismatch :
  input_unit_ok self uom_qty = false ->
  convert uom_service self quantity uom_qty result_uom w =
    (inl (IncompatibleInputCategory
            (uom_name (given_uom self uom_qty))
            (categ_name (category_id (from_uom_id self)))
            (uom_name (to_uom_id self))
            (conv_name self)), w).
Proof.
  run_convert. destruct uom_qty as [u|]; [|discriminate].
  intros ->. reflexivity.
Qed.

Lemma convert_output_mismatch :
  input_unit_ok self uom_qty = true ->
  output_unit_ok self result_uom = false ->
  convert uom_service self quantity uom_qty result_uom w =
    (inl (IncompatibleOutputCategory
            (uom_name (given_uom self uom_qty))
            (uom_name (wanted_uom self result_uom))
            (categ_name (category_id (to_uom_id self)))
            (conv_name self)),
     log_calls w (normalization_calls self quantity uom_qty)).
Proof.
  run_convert.
  destruct result_uom as [r|]; [|discriminate].
  destruct uom_qty as [u|]; intros Hin Hout.
  - rewrite Hin. simpl.
    destruct (uom_id u =? uom_id (from_uom_id self)); simpl;
      rewrite Hout; simpl; [now rewrite log_calls_nil | reflexivity].
  - simpl. rewrite Hout. simpl. now rewrite log_calls_nil.
Qed.

Lemma convert_out_of_range :
  input_unit_ok self uom_qty = true ->
  output_unit_ok self result_uom = true ->
  selected_line w self (normalized_quantity uom_service self quantity uom_qty)
    = None ->
  convert uom_service self quantity uom_qty result_uom w =
    (inl (QuantityOutOfRange
            (normalized_quantity uom_service self quantity uom_qty)
            (uom_name (given_uom self uom_qty))
            (uom_name (wanted_uom self result_uom))
            (conv_name self)),
     log_calls w (normalization_calls self quantity uom_qty)).
Proof.
  run_convert.
  intros Hin Hout.
  destruct uom_qty as [u|]; [rewrite Hin; simpl|];
    [destruct (uom_id u =? uom_id (from_uom_id self)); simpl|];
    (destruct result_uom as [r|]; [rewrite Hout|]; simpl);
    intros Hsel;
    match goal with
    | |- context [search_lines ?t ?d ?n] =>
        destruct (search_lines t d n); [|discriminate]
    end;
    rewrite ?log_calls_nil; reflexivity.
Qed.

Lemma convert_in_range (line : UomConverterLine) :
  input_unit_ok self uom_qty = true ->
  output_unit_ok self result_uom = true ->
  selected_line w self (normalized_quantity uom_service self quantity uom_qty)
    = Some line ->
  convert uom_service self quantity uom_qty result_uom w =
    (inr (apply_round_method (round_method self)
            (denormalized uom_service self result_uom
               (affine line
                  (normalized_quantity uom_service self quantity uom_qty)))),
     log_calls (log_calls w (normalization_calls self quantity uom_qty))
       (denormalization_calls self result_uom
          (affine line
             (normalized_quantity uom_service self quantity uom_qty)))).
Proof.
  run_convert.
  intros Hin Hout.
  destruct uom_qty as [u|]; [rewrite Hin; simpl|];
    [destruct (uom_id u =? uom_id (from_uom_id self)); simpl|];
    (destruct result_uom as [r|]; [rewrite Hout|]; simpl);
    intros Hsel;
    match goal with
    | |- context [search_lines ?t ?d ?n] =>
        destruct (search_lines t d n) as [|l rest]; [discriminate|]
    end;
    simpl in Hsel; injection Hsel as ->;
    try (destruct (uom_id r =? uom_id (to_uom_id self)); simpl);
    rewrite ?Z.eqb_refl; simpl;
    rewrite ?log_calls_nil; reflexivity.
Qed.

End Outcomes.

(** ** Ordering by [max_qty] *)

Lemma insert_by_max_qty_In (x line : UomConverterLine) (sorted : list UomConverterLine) :
  In x (insert_by_max_qty line sorted) <-> x = line \/ In x sorted.
Proof.
  induction sorted as [|y rest IH]; simpl.
  - intuition.
  - destruct (Qle_bool (max_qty line) (max_qty y)); simpl.
    + intuition.
    + rewrite IH. intuition.
Qed.

Lemma order_by_max_qty_In (x : UomConverterLine) (lines : list UomConverterLine) :
  In x (order_by_max_qty lines) <-> In x lines.
Proof.
  induction lines as [|y rest IH]; simpl.
  - tauto.
  - rewrite insert_by_max_qty_In, IH. intuition.
Qed.

(** The first line of the ordered list has the least [max_qty]. *)
Lemma order_by_max_qty_head (lines : list UomConverterLine) :
  forall h t, order_by_max_qty lines = h :: t ->
  forall x, In x lines -> (max_qty h <= max_qty x)%Q.
Proof.
  induction lines as [|a rest IH]; intros h t Hord x Hx.
  - destruct Hx.
  - simpl in Hord.
    destruct (order_by_max_qty rest) as [|h' t'] eqn:Hrest.
    + simpl in Hord. injection Hord as <- <-.
      destruct Hx as [<- | Hx]; [apply Qle_refl|].
      apply order_by_max_qty_In in Hx. rewrite Hrest in Hx. destruct Hx.
    + simpl in Hord.
      destruct (Qle_bool (max_qty a) (max_qty h')) eqn:Hle.
      * injection Hord as <- <-.
        destruct Hx as [<- | Hx]; [apply Qle_refl|].
        apply Qle_bool_iff in Hle.
        eapply Qle_trans; [exact Hle|]. eapply IH; [reflexivity | exact Hx].
      * injection Hord as <- <-.
        destruct Hx as [<- | Hx].
        -- apply Qlt_le_weak, Qnot_le_lt. intro Hc.
           apply Qle_bool_iff in Hc. congruence.
        -- eapply IH; [reflexivity | exact Hx].
Qed.

(** ** What the search of [convert] finds *)

Lemma domain_holds_qualifies (self : UomConverter) (quantity : number)
    (line : UomConverterLine) :
  domain_holds [uom_converter_id_eq (conv_id self); max_qty_ge quantity] line = true
  <-> qualifies self quantity line.
Proof.
  unfold domain_holds, qualifies. simpl.
  rewrite andb_true_r, andb_true_iff, Z.eqb_eq, Qle_bool_iff. tauto.
Qed.

Lemma selected_line_Some (w : World) (self : UomConverter) (quantity : number)
    (line : UomConverterLine) :
  selected_line w self quantity = Some line ->
  In line (uom_converter_line_table w) /\
  qualifies self quantity line /\
  forall other, In other (uom_converter_line_table w) ->
    qualifies self quantity other -> (max_qty line <= max_qty other)%Q.
Proof.
  unfold selected_line, search_lines. intros Hsel.
  destruct (order_by_max_qty _) as [|h t] eqn:Hord; [discriminate|].
  simpl in Hsel. injection Hsel as ->.
  assert (Hin : In line (line :: t)) by now left.
  rewrite <- Hord in Hin. apply order_by_max_qty_In, filter_In in Hin.
  destruct Hin as [Hin Hdom]. apply domain_holds_qualifies in Hdom.
  split; [exact Hin|]. split; [exact Hdom|].
  intros other Hother Hq.
  eapply order_by_max_qty_head; [exact Hord|].
  apply filter_In. split; [exact Hother|]. now apply domain_holds_qualifies.
Qed.

Lemma selected_line_None (w : World) (self : UomConverter) (quantity : number) :
  selected_line w self quantity = None ->
  forall line, In line (uom_converter_line_table w) -> ~ qualifies self quantity line.
Proof.
  unfold selected_line, search_lines. intros Hsel line Hin Hq.
  destruct (order_by_max_qty _) as [|h t] eqn:Hord; [|discriminate].
  assert (Hl : In line (order_by_max_qty
                 (filter (domain_holds [uom_converter_id_eq (conv_id self);
                                        max_qty_ge quantity])
                         (uom_converter_line_table w)))).
  { apply order_by_max_qty_In, filter_In. split; [exact Hin|].
    now apply domain_holds_qualifies. }
  rewrite Hord in Hl. destruct Hl.
Qed.

Lemma selected_line_exists (w : World) (self : UomConverter) (quantity : number)
    (line : UomConverterLine) :
  In line (uom_converter_line_table w) -> qualifies self quantity line ->
  exists found, selected_line w self quantity = Some found.
Proof.
  intros Hin Hq.
  destruct (selected_line w self quantity) as [found|] eqn:Hsel.
  - now exists found.
  - exfalso. exact (selected_line_None _ _ _ Hsel line Hin Hq).
Qed.

(** A run that returns a value passed both category checks and found a
    line. *)
Lemma convert_returns_inv (uom_service : Uom -> number -> Uom -> number)
    (self : UomConverter) (quantity : number) (uom_qty result_uom : option Uom)
    (w w' : World) (v : number) :
  convert uom_service self quantity uom_qty result_uom w = (inr v, w') ->
  input_unit_ok self uom_qty = true /\
  output_unit_ok self result_uom = true /\
  exists line,
    selected_line w self (normalized_quantity uom_service self quantity uom_qty)
      = Some line /\
    v = apply_round_method (round_method self)
          (denormalized uom_service self result_uom
             (affine line (normalized_quantity uom_service self quantity uom_qty))).
Proof.
  intros Hrun.
  destruct (input_unit_ok self uom_qty) eqn:Hin.
  2:{ rewrite convert_input_mismatch in Hrun by exact Hin. discriminate. }
  destruct (output_unit_ok self result_uom) eqn:Hout.
  2:{ rewrite convert_output_mismatch in Hrun by assumption. discriminate. }
  destruct (selected_line w self
              (normalized_quantity uom_service self quantity uom_qty))
    as [line|] eqn:Hsel.
  2:{ rewrite convert_out_of_range in Hrun by assumption. discriminate. }
  rewrite (convert_in_range _ _ _ _ _ _ line) in Hrun by assumption.
  injection Hrun as <- _.
  repeat split. exists line. split; reflexivity.
Qed.

Lemma normalization_calls_length (self : UomConverter) (quantity : number)
    (uom_qty : option Uom) :
  (List.length (normalization_calls self quantity uom_qty) <= 1)%nat.
Proof.
  unfold normalization_calls. destruct uom_qty as [u|]; simpl; [|lia].
  destruct (negb _); simpl; lia.
Qed.

Lemma denormalization_calls_length (self : UomConverter) (result_uom : option Uom)
    (result : number) :
  (List.length (denormalization_calls self result_uom result) <= 1)%nat.
Proof.
  unfold denormalization_calls. destruct result_uom as [r|]; simpl; [|lia].
  destruct (negb _); simpl; lia.
Qed.

Lemma normalization_calls_shape (self : UomConverter) (quantity : number)
    (uom_qty : option Uom) :
  Forall (fun c => Some (call_from c) = uom_qty /\ call_to c = from_uom_id self)
         (normalization_calls self quantity uom_qty).
Proof.
  unfold normalization_calls. destruct uom_qty as [u|]; [|constructor].
  destruct (negb _); repeat constructor.
Qed.

Lemma denormalization_calls_shape (self : UomConverter) (result_uom : option Uom)
    (result : number) :
  Forall (fun c => call_from c = to_uom_id self /\ Some (call_to c) = result_uom)
         (denormalization_calls self result_uom result).
Proof.
  unfold denormalization_calls. destruct result_uom as [r|]; [|constructor].
  destruct (negb _); repeat constructor.
Qed.

(** ** Selection of the scale line *)

(** C1: whenever [convert] returns a value, that value is computed from a
    line of the converter whose [max_qty] is at least the normalized
    quantity and is the least such [max_qty] in the table: no qualifying
    line has a smaller [max_qty] than the selected one. *)
Theorem convert_selects_least_max_qty
    (uom_service : Uom -> number -> Uom -> number) (self : UomConverter)
    (quantity : number) (uom_qty result_uom : option Uom) (w w' : World)
    (v : number) :
  convert uom_service self quantity uom_qty result_uom w = (inr v, w') ->
  exists line,
    selected_line w self (normalized_quantity uom_service self quantity uom_qty)
      = Some line /\
    In line (uom_converter_line_table w) /\
    qualifies self (normalized_quantity uom_service self quantity uom_qty) line /\
    (forall other,
        In other (uom_converter_line_table w) ->
        qualifies self (normalized_quantity uom_service self quantity uom_qty) other ->
        (max_qty line <= max_qty other)%Q /\ ~ (max_qty other < max_qty line)%Q) /\
    v = apply_round_method (round_method self)
          (denormalized uom_service self result_uom
             (affine line (normalized_quantity uom_service self quantity uom_qty))).
Proof.
  intros Hrun.
  destruct (convert_returns_inv _ _ _ _ _ _ _ _ Hrun)
    as (_ & _ & line & Hsel & Hv).
  destruct (selected_line_Some _ _ _ _ Hsel) as (Hin & Hq & Hmin).
  exists line. repeat split; try assumption; try apply Hq.
  - now apply Hmin.
  - apply Qle_not_lt. now apply Hmin.
Qed.

Lemma convert_selects_least_max_qty_witness :
  exists v w',
    convert Sample.catalog Sample.parcels (PyInt 6000)
      (Some Sample.gram) (Some Sample.dozen) Sample.parcel_world = (inr v, w') /\
    exists line,
      selected_line Sample.parcel_world Sample.parcels
        (normalized_quantity Sample.catalog Sample.parcels (PyInt 6000)
           (Some Sample.gram)) = Some line /\
      In line (uom_converter_line_table Sample.parcel_world) /\
      qualifies Sample.parcels
        (normalized_quantity Sample.catalog Sample.parcels (PyInt 6000)
           (Some Sample.gram)) line /\
      (forall other,
          In other (uom_converter_line_table Sample.parcel_world) ->
          qualifies Sample.parcels
            (normalized_quantity Sample.catalog Sample.parcels (PyInt 6000)
               (Some Sample.gram)) other ->
          (max_qty line <= max_qty other)%Q /\ ~ (max_qty other < max_qty line)%Q) /\
      v = apply_round_method (round_method Sample.parcels)
            (denormalized Sample.catalog Sample.parcels (Some Sample.dozen)
               (affine line
                  (normalized_quantity Sample.catalog Sample.parcels (PyInt 6000)
                     (Some Sample.gram)))).
Proof.
  eexists. eexists. split; [cbv; reflexivity|].
  eapply (convert_selects_least_max_qty Sample.catalog Sample.parcels (PyInt 6000)
            (Some Sample.gram) (Some Sample.dozen) Sample.parcel_world).
  cbv; reflexivity.
Defined.

(** ** In range and out of range *)




(** ** Category mismatch *)

(** C3: whatever the quantity, a supplied input unit whose category is not
    that of the source unit, or a supplied output unit whose category is
    not that of the destination unit, makes [convert] raise an
    incompatible-category error. *)
Theorem convert_rejects_category_mismatch
    (uom_service : Uom -> number -> Uom -> number) (self : UomConverter)
    (quantity : number) (uom_qty result_uom : option Uom) (w : World) :
  (exists u, uom_qty = Some u /\
     categ_id (category_id u) <> categ_id (category_id (from_uom_id self))) \/
  (exists r, result_uom = Some r /\
     categ_id (category_id r) <> categ_id (category_id (to_uom_id self))) ->
  exists e w',
    convert uom_service self quantity uom_qty result_uom w = (inl e, w') /\
    is_incompatible_unit_category e = true.
Proof.
  intros Hbad.
  destruct (input_unit_ok self uom_qty) eqn:Hin.
  - destruct Hbad as [(u & -> & Hne) | (r & -> & Hne)].
    + simpl in Hin. apply Z.eqb_eq in Hin. contradiction.
    + assert (Hout : output_unit_ok self (Some r) = false)
        by (simpl; now apply Z.eqb_neq).
      rewrite convert_output_mismatch by assumption.
      eexists. eexists. split; reflexivity.
  - rewrite convert_input_mismatch by assumption.
    eexists. eexists. split; reflexivity.
Qed.

Lemma convert_rejects_category_mismatch_witness :
  ((exists u, Some Sample.gram = Some u /\
      categ_id (category_id u)
      <> categ_id (category_id (from_uom_id Sample.parcels))) \/
   (exists r, Some Sample.litre = Some r /\
      categ_id (category_id r)
      <> categ_id (category_id (to_uom_id Sample.parcels)))) /\
  exists e w',
    convert Sample.catalog Sample.parcels (PyInt 3) (Some Sample.gram)
      (Some Sample.litre) Sample.parcel_world = (inl e, w') /\
    is_incompatible_unit_category e = true.
Proof.
  assert (H : (exists u, Some Sample.gram = Some u /\
                 categ_id (category_id u)
                 <> categ_id (category_id (from_uom_id Sample.parcels))) \/
              (exists r, Some Sample.litre = Some r /\
                 categ_id (category_id r)
                 <> categ_id (category_id (to_uom_id Sample.parcels)))).
  { right. exists Sample.litre. split; [reflexivity|]. simpl. discriminate. }
  split; [exact H|].
  exact (convert_rejects_category_mismatch Sample.catalog Sample.parcels (PyInt 3)
           (Some Sample.gram) (Some Sample.litre) Sample.parcel_world H).
Defined.

(** ** The flour-to-eggs examples *)

(** C4: one line with [max_qty] 100000, coefficient 0.01 and constant 0, no
    unit arguments.  With ceil 101 gives 2 and 100 gives 1; with floor 101
    gives 1; with round 149.9 gives 1 and 150.1 gives 2. *)
Theorem flour_to_eggs_examples (uom_service : Uom -> number -> Uom -> number) :
  fst (convert uom_service (Sample.flour_to_eggs rm_ceil) (PyInt 101)
         None None Sample.flour_world) = inr (PyInt 2) /\
  fst (convert uom_service (Sample.flour_to_eggs rm_ceil) (PyInt 100)
         None None Sample.flour_world) = inr (PyInt 1) /\
  fst (convert uom_service (Sample.flour_to_eggs rm_floor) (PyInt 101)
         None None Sample.flour_world) = inr (PyInt 1) /\
  fst (convert uom_service (Sample.flour_to_eggs rm_round) (PyFloat (1499 # 10))
         None None Sample.flour_world) = inr (PyInt 1) /\
  fst (convert uom_service (Sample.flour_to_eggs rm_round) (PyFloat (1501 # 10))
         None None Sample.flour_world) = inr (PyInt 2).
Proof.
  repeat split; reflexivity.
Qed.

(** The same five results on binary64: the quantity as a float, times the
    float nearest to 0.01, plus 0.0, then rounded. *)
#[warnings="-inexact-float"]
Remark flour_to_eggs_examples_binary64 :
  option_map (fun q => apply_round_method rm_ceil (PyFloat q))
    (binary64_value (101 * 0.01 + 0)%float) = Some (PyInt 2) /\
  option_map (fun q => apply_round_method rm_ceil (PyFloat q))
    (binary64_value (100 * 0.01 + 0)%float) = Some (PyInt 1) /\
  option_map (fun q => apply_round_method rm_floor (PyFloat q))
    (binary64_value (101 * 0.01 + 0)%float) = Some (PyInt 1) /\
  option_map (fun q => apply_round_method rm_round (PyFloat q))
    (binary64_value (149.9 * 0.01 + 0)%float) = Some (PyInt 1) /\
  option_map (fun q => apply_round_method rm_round (PyFloat q))
    (binary64_value (150.1 * 0.01 + 0)%float) = Some (PyInt 2).
Proof.
  repeat split; vm_compute; reflexivity.
Qed.

(** ** Monotonic bracket selection *)

(** C5: of two runs on the same converter and table that both return a
    value, the one with the larger normalized quantity is served by a line
    whose [max_qty] is not smaller. *)
Theorem selected_max_qty_monotonic
    (uom_service : Uom -> number -> Uom -> number) (self : UomConverter)
    (q1 q2 : number) (uom_qty1 uom_qty2 result_uom1 result_uom2 : option Uom)
    (w w1 w2 : World) (v1 v2 : number) :
  convert uom_service self q1 uom_qty1 result_uom1 w = (inr v1, w1) ->
  convert uom_service self q2 uom_qty2 result_uom2 w = (inr v2, w2) ->
  (to_Q (normalized_quantity uom_service self q1 uom_qty1)
   < to_Q (normalized_quantity uom_service self q2 uom_qty2))%Q ->
  exists line1 line2,
    selected_line w self (normalized_quantity uom_service self q1 uom_qty1)
      = Some line1 /\
    selected_line w self (normalized_quantity uom_service self q2 uom_qty2)
      = Some line2 /\
    (max_qty line1 <= max_qty line2)%Q.
Proof.
  intros Hrun1 Hrun2 Hlt.
  destruct (convert_returns_inv _ _ _ _ _ _ _ _ Hrun1)
    as (_ & _ & line1 & Hsel1 & _).
  destruct (convert_returns_inv _ _ _ _ _ _ _ _ Hrun2)
    as (_ & _ & line2 & Hsel2 & _).
  exists line1, line2. split; [exact Hsel1|]. split; [exact Hsel2|].
  destruct (selected_line_Some _ _ _ _ Hsel1) as (_ & _ & Hmin1).
  destruct (selected_line_Some _ _ _ _ Hsel2) as (Hin2 & (Hown2 & Hle2) & _).
  apply Hmin1; [exact Hin2|]. split; [exact Hown2|].
  apply Qlt_le_weak. eapply Qlt_le_trans; [exact Hlt | exact Hle2].
Qed.

Lemma selected_max_qty_monotonic_witness :
  exists v1 w1 v2 w2,
    convert Sample.catalog Sample.parcels (PyInt 4) None None Sample.parcel_world
      = (inr v1, w1) /\
    convert Sample.catalog Sample.parcels (PyInt 6000) (Some Sample.gram)
      (Some Sample.dozen) Sample.parcel_world = (inr v2, w2) /\
    (to_Q (normalized_quantity Sample.catalog Sample.parcels (PyInt 4) None)
     < to_Q (normalized_quantity Sample.catalog Sample.parcels (PyInt 6000)
               (Some Sample.gram)))%Q /\
    exists line1 line2,
      selected_line Sample.parcel_world Sample.parcels
        (normalized_quantity Sample.catalog Sample.parcels (PyInt 4) None)
        = Some line1 /\
      selected_line Sample.parcel_world Sample.parcels
        (normalized_quantity Sample.catalog Sample.parcels (PyInt 6000)
           (Some Sample.gram)) = Some line2 /\
      (max_qty line1 <= max_qty line2)%Q.
Proof.
  do 4 eexists.
  split; [cbv; reflexivity|]. split; [cbv; reflexivity|].
  split; [reflexivity|].
  eapply (selected_max_qty_monotonic Sample.catalog Sample.parcels
            (PyInt 4) (PyInt 6000) None (Some Sample.gram) None (Some Sample.dozen)
            Sample.parcel_world);
    [cbv; reflexivity | cbv; reflexivity | reflexivity].
Defined.

(** ** Rounding *)

(** C6: each of the four rounding policies, applied to its own result,
    leaves it as it is. *)
Theorem apply_round_method_idempotent (m : RoundMethod) (v : number) :
  apply_round_method m (apply_round_method m v) = apply_round_method m v.
Proof.
  destruct m, v; reflexivity.
Qed.

(** ** Identity units *)

(** C7: called with the converter's own source and destination units,
    [convert] behaves as with both units omitted: same outcome, no call to
    the unit catalog, and a result that depends on the selected line and
    the rounding policy only: a value it returns is the rounded affine
    image of the quantity under that line, and without a line it raises
    the out-of-range error. *)
Theorem convert_identity_units
    (uom_service : Uom -> number -> Uom -> number) (self : UomConverter)
    (quantity : number) (w : World) :
  convert uom_service self quantity
    (Some (from_uom_id self)) (Some (to_uom_id self)) w
  = convert uom_service self quantity None None w /\
  snd (convert uom_service self quantity
         (Some (from_uom_id self)) (Some (to_uom_id self)) w) = w /\
  match selected_line w self quantity with
  | Some line =>
      forall v w',
        convert uom_service self quantity
          (Some (from_uom_id self)) (Some (to_uom_id self)) w = (inr v, w') ->
        v = apply_round_method (round_method self) (affine line quantity)
  | None =>
      fst (convert uom_service self quantity
             (Some (from_uom_id self)) (Some (to_uom_id self)) w)
      = inl (QuantityOutOfRange quantity
               (uom_name (from_uom_id self)) (uom_name (to_uom_id self))
               (conv_name self))
  end.
Proof.
  assert (Hin : input_unit_ok self (Some (from_uom_id self)) = true)
    by apply Z.eqb_refl.
  assert (Hout : output_unit_ok self (Some (to_uom_id self)) = true)
    by apply Z.eqb_refl.
  assert (Hq : normalized_quantity uom_service self quantity
                 (Some (from_uom_id self)) = quantity)
    by (unfold normalized_quantity; now rewrite Z.eqb_refl).
  assert (Hn : normalization_calls self quantity (Some (from_uom_id self)) = [])
    by (unfold normalization_calls; now rewrite Z.eqb_refl).
  assert (Hd : forall r, denormalized uom_service self (Some (to_uom_id self)) r = r)
    by (intro r; unfold denormalized; now rewrite Z.eqb_refl).
  assert (Hc : forall r, denormalization_calls self (Some (to_uom_id self)) r = [])
    by (intro r; unfold denormalization_calls; now rewrite Z.eqb_refl).
  destruct (selected_line w self quantity) as [line|] eqn:Hsel.
  - rewrite (convert_in_range _ _ _ _ _ _ line Hin Hout) by now rewrite Hq.
    rewrite (convert_in_range _ _ _ None None _ line) by easy.
    rewrite Hq, Hn, Hd, Hc. simpl. rewrite !log_calls_nil.
    split; [reflexivity|]. split; [reflexivity|].
    intros v w' Hrun. now injection Hrun as <- _.
  - rewrite (convert_out_of_range _ _ _ _ _ _ Hin Hout) by now rewrite Hq.
    rewrite (convert_out_of_range _ _ _ None None) by easy.
    rewrite Hq, Hn. simpl. rewrite !log_calls_nil. auto.
Qed.

Lemma convert_identity_units_witness :
  selected_line Sample.flour_world (Sample.flour_to_eggs rm_ceil) (PyInt 101)
    = Some Sample.flour_line /\
  convert Sample.catalog (Sample.flour_to_eggs rm_ceil) (PyInt 101)
    (Some Sample.gram) (Some Sample.egg) Sample.flour_world
    = (inr (PyInt 2), Sample.flour_world) /\
  PyInt 2 = apply_round_method rm_ceil (affine Sample.flour_line (PyInt 101)).
Proof.
  split; [reflexivity|]. split; [reflexivity|].
  exact (proj2 (proj2 (convert_identity_units Sample.catalog
                         (Sample.flour_to_eggs rm_ceil) (PyInt 101)
                         Sample.flour_world))
           (PyInt 2) Sample.flour_world eq_refl).
Defined.

(** ** Frame and calls to the unit catalog *)

(** C8: a run of [convert], whether it returns or raises, leaves the
    converter table and the line table as they were, and adds to the log of
    catalog calls at most one call made while normalizing (from the given
    unit to the source unit) followed by at most one made while
    denormalizing (from the destination unit to the unit asked for): at
    most two in all. *)
Theorem convert_reads_only_and_calls_at_most_twice
    (uom_service : Uom -> number -> Uom -> number) (self : UomConverter)
    (quantity : number) (uom_qty result_uom : option Uom) (w : World) :
  let w' := snd (convert uom_service self quantity uom_qty result_uom w) in
  uom_converter_table w' = uom_converter_table w /\
  uom_converter_line_table w' = uom_converter_line_table w /\
  exists norm denorm,
    uom_calls w' = uom_calls w ++ norm ++ denorm /\
    (List.length norm <= 1)%nat /\
    (List.length denorm <= 1)%nat /\
    (List.length (norm ++ denorm) <= 2)%nat /\
    Forall (fun c => Some (call_from c) = uom_qty /\ call_to c = from_uom_id self)
           norm /\
    Forall (fun c => call_from c = to_uom_id self /\ Some (call_to c) = result_uom)
           denorm.
Proof.
  assert (Hshape : forall norm denorm : list UomCall,
    (List.length norm <= 1)%nat -> (List.length denorm <= 1)%nat ->
    (List.length (norm ++ denorm) <= 2)%nat).
  { intros norm denorm H1 H2. rewrite length_app. lia. }
  pose proof (normalization_calls_length self quantity uom_qty) as Hn.
  pose proof (normalization_calls_shape self quantity uom_qty) as Hns.
  destruct (input_unit_ok self uom_qty) eqn:Hin.
  2:{ rewrite convert_input_mismatch by assumption. simpl.
      repeat split. exists [], []. simpl. rewrite app_nil_r.
      repeat split; auto. }
  destruct (output_unit_ok self result_uom) eqn:Hout.
  2:{ rewrite convert_output_mismatch by assumption. simpl.
      repeat split. exists (normalization_calls self quantity uom_qty), [].
      rewrite app_nil_r. repeat split; auto. }
  destruct (selected_line w self
              (normalized_quantity uom_service self quantity uom_qty))
    as [line|] eqn:Hsel.
  - rewrite (convert_in_range _ _ _ _ _ _ line) by assumption. simpl.
    repeat split.
    exists (normalization_calls self quantity uom_qty),
           (denormalization_calls self result_uom
              (affine line (normalized_quantity uom_service self quantity uom_qty))).
    rewrite app_assoc.
    pose proof (denormalization_calls_length self result_uom
      (affine line (normalized_quantity uom_service self quantity uom_qty))) as Hd.
    repeat split; auto. apply denormalization_calls_shape.
  - rewrite convert_out_of_range by assumption. simpl.
    repeat split. exists (normalization_calls self quantity uom_qty), [].
    rewrite app_nil_r. repeat split; auto.
Qed.

(** ** Order of the checks *)

(** C9: the input-unit check comes first, the output-unit check second and
    the range check last.  A supplied input unit of another category gives
    the input-category error whatever the output unit and the quantity; if
    the input unit passes, a supplied output unit of another category gives
    the output-category error whatever the quantity; and the out-of-range
    error is raised only after both checks have passed. *)
Theorem convert_check_precedence
    (uom_service : Uom -> number -> Uom -> number) (self : UomConverter)
    (quantity : number) (uom_qty result_uom : option Uom) (w : World) :
  (forall u,
      uom_qty = Some u ->
      categ_id (category_id u) <> categ_id (category_id (from_uom_id self)) ->
      convert uom_service self quantity uom_qty result_uom w =
        (inl (IncompatibleInputCategory
                (uom_name u)
                (categ_name (category_id (from_uom_id self)))
                (uom_name (to_uom_id self))
                (conv_name self)), w)) /\
  (forall r,
      input_unit_ok self uom_qty = true ->
      result_uom = Some r ->
      categ_id (category_id r) <> categ_id (category_id (to_uom_id self)) ->
      fst (convert uom_service self quantity uom_qty result_uom w) =
        inl (IncompatibleOutputCategory
               (uom_name (given_uom self uom_qty))
               (uom_name r)
               (categ_name (category_id (to_uom_id self)))
               (conv_name self))) /\
  (forall q uom to_uom converter,
      fst (convert uom_service self quantity uom_qty result_uom w) =
        inl (QuantityOutOfRange q uom to_uom converter) ->
      input_unit_ok self uom_qty = true /\ output_unit_ok self result_uom = true).
Proof.
  split; [|split].
  - intros u -> Hne.
    rewrite convert_input_mismatch by (simpl; now apply Z.eqb_neq).
    reflexivity.
  - intros r Hin -> Hne.
    rewrite convert_output_mismatch by (try assumption; simpl; now apply Z.eqb_neq).
    reflexivity.
  - intros q uom to_uom converter Hrun.
    destruct (input_unit_ok self uom_qty) eqn:Hin.
    2:{ rewrite convert_input_mismatch in Hrun by assumption. discriminate. }
    destruct (output_unit_ok self result_uom) eqn:Hout.
    2:{ rewrite convert_output_mismatch in Hrun by assumption. discriminate. }
    split; reflexivity.
Qed.

Lemma convert_check_precedence_witness :
  (* input and output unit both foreign, quantity beyond every bracket *)
  convert Sample.catalog Sample.parcels (PyInt 1000)
    (Some Sample.litre) (Some Sample.litre) Sample.parcel_world =
    (inl (IncompatibleInputCategory "L" "Weight" "Units" "parcels"),
     Sample.parcel_world) /\
  (* output unit foreign, quantity beyond every bracket *)
  fst (convert Sample.catalog Sample.parcels (PyInt 1000000)
         (Some Sample.gram) (Some Sample.litre) Sample.parcel_world) =
    inl (IncompatibleOutputCategory "g" "L" "Unit" "parcels") /\
  (* both units fine, quantity beyond every bracket *)
  (input_unit_ok Sample.parcels (Some Sample.gram) = true /\
   output_unit_ok Sample.parcels (Some Sample.dozen) = true).
Proof.
  split; [|split].
  - apply (proj1 (convert_check_precedence Sample.catalog Sample.parcels
                    (PyInt 1000) (Some Sample.litre) (Some Sample.litre)
                    Sample.parcel_world) Sample.litre);
      [reflexivity | simpl; discriminate].
  - apply (proj1 (proj2 (convert_check_precedence Sample.catalog Sample.parcels
                    (PyInt 1000000) (Some Sample.gram) (Some Sample.litre)
                    Sample.parcel_world)) Sample.litre);
      [reflexivity | reflexivity | simpl; discriminate].
  - apply (proj2 (proj2 (convert_check_precedence Sample.catalog Sample.parcels
                    (PyInt 1000000) (Some Sample.gram) (Some Sample.dozen)
                    Sample.parcel_world))
             (PyFloat (1000000 # 1000)) "g"%string "Dozens"%string "parcels"%string).
    reflexivity.
Defined.

(** ** Type of the result *)

(** C10: a value returned under ceil, floor or round is an [int]; under
    "none" it is the value obtained after denormalization, as it is. *)
Theorem convert_result_int_or_unrounded
    (uom_service : Uom -> number -> Uom -> number) (self : UomConverter)
    (quantity : number) (uom_qty result_uom : option Uom) (w w' : World)
    (v : number) :
  convert uom_service self quantity uom_qty result_uom w = (inr v, w') ->
  (round_method self = rm_ceil \/ round_method self = rm_floor \/
   round_method self = rm_round ->
   exists z, v = PyInt z) /\
  (round_method self = rm_none ->
   exists line,
     selected_line w self (normalized_quantity uom_service self quantity uom_qty)
       = Some line /\
     v = denormalized uom_service self result_uom
           (affine line (normalized_quantity uom_service self quantity uom_qty))).
Proof.
  intros Hrun.
  destruct (convert_returns_inv _ _ _ _ _ _ _ _ Hrun)
    as (_ & _ & line & Hsel & ->).
  split.
  - intros [-> | [-> | ->]]; simpl;
      match goal with
      | |- context [denormalized ?s ?c ?r ?x] => destruct (denormalized s c r x)
      end; simpl; eexists; reflexivity.
  - intros ->. exists line. split; [exact Hsel | reflexivity].
Qed.

Lemma convert_result_int_or_unrounded_witness :
  (exists w',
     convert Sample.catalog (Sample.flour_to_eggs rm_round) (PyFloat (1501 # 10))
       None None Sample.flour_world = (inr (PyInt 2), w') /\
     exists z, PyInt 2 = PyInt z) /\
  (exists v w',
     convert Sample.catalog Sample.parcels (PyInt 6000)
       (Some Sample.gram) (Some Sample.dozen) Sample.parcel_world = (inr v, w') /\
     exists line,
       selected_line Sample.parcel_world Sample.parcels
         (normalized_quantity Sample.catalog Sample.parcels (PyInt 6000)
            (Some Sample.gram)) = Some line /\
       v = denormalized Sample.catalog Sample.parcels (Some Sample.dozen)
             (affine line
                (normalized_quantity Sample.catalog Sample.parcels (PyInt 6000)
                   (Some Sample.gram)))).
Proof.
  split.
  - eexists. split; [cbv; reflexivity|].
    refine (proj1 (convert_result_int_or_unrounded Sample.catalog
                     (Sample.flour_to_eggs rm_round) (PyFloat (1501 # 10))
                     None None Sample.flour_world _ (PyInt 2) _) _).
    + cbv; reflexivity.
    + right. right. reflexivity.
  - eexists. eexists. split; [cbv; reflexivity|].
    refine (proj2 (convert_result_int_or_unrounded Sample.catalog
                     Sample.parcels (PyInt 6000) (Some Sample.gram)
                     (Some Sample.dozen) Sample.parcel_world _ _ _) _).
    + cbv; reflexivity.
    + reflexivity.
Defined.

(** * Further properties of [convert] *)

(** ** Integer rounding of rationals *)

Lemma inject_Z_succ (z : Z) : inject_Z (z + 1) == inject_Z z + 1.
Proof. rewrite inject_Z_plus. reflexivity. Qed.

Lemma Qfloor_bounds (q : Q) :
  (inject_Z (Qfloor q) <= q)%Q /\ (q < inject_Z (Qfloor q) + 1)%Q.
Proof.
  split; [apply Qfloor_le|].
  rewrite <- inject_Z_succ. apply Qlt_floor.
Qed.

Lemma Qceiling_bounds (q : Q) :
  (q <= inject_Z (Qceiling q))%Q /\ (inject_Z (Qceiling q) < q + 1)%Q.
Proof.
  split; [apply Qle_ceiling|].
  pose proof (Qceiling_lt q) as H.
  unfold Z.sub in H. rewrite inject_Z_plus in H.
  change (inject_Z (- (1))) with (- (1))%Q in H. lra.
Qed.

Lemma round_half_even_cases (q : Q) :
  (round_half_even q = Qfloor q /\ (q - inject_Z (Qfloor q) <= 1 # 2)%Q) \/
  (round_half_even q = Qfloor q + 1 /\ (1 # 2 <= q - inject_Z (Qfloor q))%Q).
Proof.
  unfold round_half_even.
  destruct (Qcompare_spec (q - inject_Z (Qfloor q)) (1 # 2)) as [He | Hl | Hg].
  - destruct (Z.even (Qfloor q)); [left | right]; split; trivial; lra.
  - left. split; trivial. lra.
  - right. split; trivial. lra.
Qed.

Lemma round_half_even_bounds (q : Q) :
  (q - (1 # 2) <= inject_Z (round_half_even q))%Q /\
  (inject_Z (round_half_even q) <= q + (1 # 2))%Q.
Proof.
  destruct (Qfloor_bounds q) as [Hlo Hhi].
  destruct (round_half_even_cases q) as [[-> H] | [-> H]].
  - lra.
  - rewrite inject_Z_succ. lra.
Qed.

Lemma round_half_even_Z (z : Z) : round_half_even (inject_Z z) = z.
Proof.
  destruct (round_half_even_cases (inject_Z z)) as [[-> H] | [-> H]];
    rewrite Qfloor_Z in *; [reflexivity|].
  exfalso. lra.
Qed.

Lemma round_half_even_resp_le (x y : Q) :
  (x <= y)%Q -> round_half_even x <= round_half_even y.
Proof.
  intros Hxy.
  pose proof (Qfloor_resp_le _ _ Hxy) as Hf.
  destruct (Z.eq_dec (Qfloor x) (Qfloor y)) as [Heq | Hne].
  - unfold round_half_even. rewrite <- Heq.
    destruct (Qcompare_spec (x - inject_Z (Qfloor x)) (1 # 2));
      destruct (Qcompare_spec (y - inject_Z (Qfloor x)) (1 # 2));
      destruct (Z.even (Qfloor x)); try lia; exfalso; lra.
  - destruct (round_half_even_cases x) as [[-> _] | [-> _]];
      destruct (round_half_even_cases y) as [[-> _] | [-> _]]; lia.
Qed.

Lemma Qceiling_le_floor_succ (q : Q) : Qfloor q <= Qceiling q <= Qfloor q + 1.
Proof.
  destruct (Qfloor_bounds q) as [Hlo Hhi].
  destruct (Qceiling_bounds q) as [Clo Chi].
  split.
  - rewrite Zle_Qle. lra.
  - assert (H : (inject_Z (Qceiling q) < inject_Z (Qfloor q + 2))%Q).
    { replace (Qfloor q + 2) with (Qfloor q + 1 + 1) by lia.
      rewrite !inject_Z_succ. lra. }
    rewrite <- Zlt_Qlt in H. lia.
Qed.

Lemma round_half_even_between (q : Q) :
  Qfloor q <= round_half_even q <= Qceiling q.
Proof.
  destruct (Qfloor_bounds q) as [Hlo Hhi].
  destruct (Qceiling_bounds q) as [Clo Chi].
  pose proof (Qceiling_le_floor_succ q) as Hfc.
  destruct (round_half_even_cases q) as [[-> H] | [-> H]]; [lia|].
  split; [lia|].
  assert (Hlt : (inject_Z (Qfloor q) < inject_Z (Qceiling q))%Q) by lra.
  rewrite <- Zlt_Qlt in Hlt. lia.
Qed.

Lemma py_ceil_to_Q (x : number) : py_ceil x = PyInt (Qceiling (to_Q x)).
Proof. destruct x; unfold py_ceil, to_Q; [now rewrite Qceiling_Z | reflexivity]. Qed.

Lemma py_floor_to_Q (x : number) : py_floor x = PyInt (Qfloor (to_Q x)).
Proof. destruct x; unfold py_floor, to_Q; [now rewrite Qfloor_Z | reflexivity]. Qed.

Lemma py_round_to_Q (x : number) : py_round x = PyInt (round_half_even (to_Q x)).
Proof. destruct x; unfold py_round, to_Q; [now rewrite round_half_even_Z | reflexivity]. Qed.

(** ** The rounding policy is the last step *)

(** A run that returns under "none" returns under any policy, in the same
    world, the policy applied to that value. *)
Lemma convert_returns_under (m : RoundMethod)
    (uom_service : Uom -> number -> Uom -> number) (self : UomConverter)
    (quantity : number) (uom_qty result_uom : option Uom) (w w' : World)
    (x : number) :
  convert uom_service (set_round_method rm_none self) quantity uom_qty result_uom w
    = (inr x, w') ->
  convert uom_service (set_round_method m self) quantity uom_qty result_uom w
    = (inr (apply_round_method m x), w').
Proof.
  intros Hrun.
  destruct (convert_returns_inv _ _ _ _ _ _ _ _ Hrun)
    as (Hin & Hout & line & Hsel & Hx).
  rewrite (convert_in_range _ _ _ _ _ _ line) in Hrun by assumption.
  injection Hrun as _ <-.
  rewrite (convert_in_range _ (set_round_method m self) _ _ _ _ line)
    by assumption.
  rewrite Hx. reflexivity.
Qed.

(** A run that returns under a policy selected a line, and its value is
    the policy applied to the denormalized affine image. *)
Lemma convert_returns_inv_under (m : RoundMethod)
    (uom_service : Uom -> number -> Uom -> number) (self : UomConverter)
    (quantity : number) (uom_qty result_uom : option Uom) (w w' : World)
    (v : number) :
  convert uom_service (set_round_method m self) quantity uom_qty result_uom w
    = (inr v, w') ->
  exists line,
    selected_line w self (normalized_quantity uom_service self quantity uom_qty)
      = Some line /\
    v = apply_round_method m
          (denormalized uom_service self result_uom
             (affine line (normalized_quantity uom_service self quantity uom_qty))) /\
    convert uom_service (set_round_method rm_none self) quantity uom_qty
      result_uom w
    = (inr (denormalized uom_service self result_uom
              (affine line
                 (normalized_quantity uom_service self quantity uom_qty))), w').
Proof.
  intros Hrun.
  destruct (convert_returns_inv _ _ _ _ _ _ _ _ Hrun)
    as (Hin & Hout & line & Hsel & Hv).
  exists line. split; [exact Hsel|]. split; [exact Hv|].
  rewrite (convert_in_range _ (set_round_method m self) _ _ _ _ line) in Hrun
    by assumption.
  injection Hrun as _ <-.
  exact (convert_in_range uom_service (set_round_method rm_none self) quantity
           uom_qty result_uom w line Hin Hout Hsel).
Qed.

(** X1: the rounding policy touches nothing but the returned value.  A run
    under any policy raises a validation error exactly when the run under
    "none" raises it, in the same world; and whenever it returns a value,
    the run under "none" returns too, in the same world, and the value is
    the policy applied to the value returned under "none". *)
Theorem convert_round_method_applies_last (m : RoundMethod)
    (uom_service : Uom -> number -> Uom -> number) (self : UomConverter)
    (quantity : number) (uom_qty result_uom : option Uom) (w : World) :
  (forall e w',
      convert uom_service (set_round_method m self) quantity uom_qty result_uom w
        = (inl e, w')
      <->
      convert uom_service (set_round_method rm_none self) quantity uom_qty
        result_uom w = (inl e, w')) /\
  (forall v w',
      convert uom_service (set_round_method m self) quantity uom_qty result_uom w
        = (inr v, w') ->
      exists x,
        convert uom_service (set_round_method rm_none self) quantity uom_qty
          result_uom w = (inr x, w') /\
        v = apply_round_method m x).
Proof.
  split.
  - intros e w'.
    destruct (input_unit_ok self uom_qty) eqn:Hin.
    2:{ rewrite !convert_input_mismatch by exact Hin. reflexivity. }
    destruct (output_unit_ok self result_uom) eqn:Hout.
    2:{ rewrite !convert_output_mismatch by assumption. reflexivity. }
    destruct (selected_line w self
                (normalized_quantity uom_service self quantity uom_qty))
      as [line|] eqn:Hsel.
    + rewrite (convert_in_range _ (set_round_method m self) _ _ _ _ line)
        by assumption.
      rewrite (convert_in_range _ (set_round_method rm_none self) _ _ _ _ line)
        by assumption.
      split; discriminate.
    + rewrite !convert_out_of_range by assumption. reflexivity.
  - intros v w' Hrun.
    destruct (convert_returns_inv_under _ _ _ _ _ _ _ _ _ Hrun)
      as (line & _ & Hv & Hnone).
    eexists. split; [exact Hnone | exact Hv].
Qed.

Lemma convert_round_method_applies_last_witness :
  convert Sample.catalog (set_round_method rm_ceil (Sample.flour_to_eggs rm_none))
    (PyInt 101) None None Sample.flour_world
    = (inr (PyInt 2), Sample.flour_world) /\
  exists x,
    convert Sample.catalog (set_round_method rm_none (Sample.flour_to_eggs rm_none))
      (PyInt 101) None None Sample.flour_world = (inr x, Sample.flour_world) /\
    PyInt 2 = apply_round_method rm_ceil x.
Proof.
  split; [reflexivity|].
  apply (proj2 (convert_round_method_applies_last rm_ceil Sample.catalog
                  (Sample.flour_to_eggs rm_none) (PyInt 101) None None
                  Sample.flour_world)).
  reflexivity.
Defined.

(** X2: the three integer policies stay within one unit of the unrounded
    result.  If the run under "none" returns [x], then whatever ceil
    returns on the same invocation is the integer in [x, x+1), whatever
    floor returns is the integer in (x-1, x], and whatever round returns is
    an integer at distance at most 1/2 from [x]. *)
Theorem convert_rounded_near_unrounded
    (uom_service : Uom -> number -> Uom -> number) (self : UomConverter)
    (quantity : number) (uom_qty result_uom : option Uom) (w w' : World)
    (x : number) :
  convert uom_service (set_round_method rm_none self) quantity uom_qty result_uom w
    = (inr x, w') ->
  (forall v wc,
      convert uom_service (set_round_method rm_ceil self) quantity uom_qty
        result_uom w = (inr v, wc) ->
      exists z, v = PyInt z /\
                (to_Q x <= inject_Z z /\ inject_Z z < to_Q x + 1)%Q) /\
  (forall v wf,
      convert uom_service (set_round_method rm_floor self) quantity uom_qty
        result_uom w = (inr v, wf) ->
      exists z, v = PyInt z /\
                (to_Q x - 1 < inject_Z z /\ inject_Z z <= to_Q x)%Q) /\
  (forall v wr,
      convert uom_service (set_round_method rm_round self) quantity uom_qty
        result_uom w = (inr v, wr) ->
      exists z, v = PyInt z /\
                (to_Q x - (1 # 2) <= inject_Z z /\
                 inject_Z z <= to_Q x + (1 # 2))%Q).
Proof.
  intros Hnone.
  assert (Hval : forall m v wm,
    convert uom_service (set_round_method m self) quantity uom_qty result_uom w
      = (inr v, wm) -> v = apply_round_method m x).
  { intros m v wm Hrun.
    destruct (convert_returns_inv_under _ _ _ _ _ _ _ _ _ Hrun)
      as (line & _ & Hv & Hn).
    rewrite Hn in Hnone. injection Hnone as <- _. exact Hv. }
  destruct (Qfloor_bounds (to_Q x)) as [Hlo Hhi].
  split; [|split]; intros v wm Hrun; rewrite (Hval _ _ _ Hrun); simpl.
  - exists (Qceiling (to_Q x)). split; [apply py_ceil_to_Q|].
    apply Qceiling_bounds.
  - exists (Qfloor (to_Q x)). split; [apply py_floor_to_Q|].
    split; [lra | exact Hlo].
  - exists (round_half_even (to_Q x)). split; [apply py_round_to_Q|].
    apply round_half_even_bounds.
Qed.

Lemma convert_rounded_near_unrounded_witness :
  exists x,
    convert Sample.catalog (set_round_method rm_none (Sample.flour_to_eggs rm_ceil))
      (PyInt 101) None None Sample.flour_world = (inr x, Sample.flour_world) /\
    convert Sample.catalog (set_round_method rm_ceil (Sample.flour_to_eggs rm_ceil))
      (PyInt 101) None None Sample.flour_world
      = (inr (PyInt 2), Sample.flour_world) /\
    exists z, PyInt 2 = PyInt z /\
              (to_Q x <= inject_Z z /\ inject_Z z < to_Q x + 1)%Q.
Proof.
  eexists. split; [cbv; reflexivity|]. split; [reflexivity|].
  eapply (proj1 (convert_rounded_near_unrounded Sample.catalog
                   (Sample.flour_to_eggs rm_ceil) (PyInt 101) None None
                   Sample.flour_world Sample.flour_world _ _));
    reflexivity.
  Unshelve. cbv; reflexivity.
Defined.

(** X3: on one invocation the policies are ordered.  When floor, round and
    ceil all return, they return integers, floor at most what round gives,
    round at most what ceil gives, and ceil exceeds floor by at most 1. *)
Theorem convert_floor_round_ceil_ordered
    (uom_service : Uom -> number -> Uom -> number) (self : UomConverter)
    (quantity : number) (uom_qty result_uom : option Uom)
    (w wf wr wc : World) (vf vr vc : number) :
  convert uom_service (set_round_method rm_floor self) quantity uom_qty result_uom w
    = (inr vf, wf) ->
  convert uom_service (set_round_method rm_round self) quantity uom_qty result_uom w
    = (inr vr, wr) ->
  convert uom_service (set_round_method rm_ceil self) quantity uom_qty result_uom w
    = (inr vc, wc) ->
  exists zf zr zc,
    vf = PyInt zf /\ vr = PyInt zr /\ vc = PyInt zc /\
    zf <= zr /\ zr <= zc /\ zc <= zf + 1.
Proof.
  intros Hf Hr Hc.
  destruct (convert_returns_inv_under _ _ _ _ _ _ _ _ _ Hf)
    as (lf & Hsf & -> & _).
  destruct (convert_returns_inv_under _ _ _ _ _ _ _ _ _ Hr)
    as (lr & Hsr & -> & _).
  destruct (convert_returns_inv_under _ _ _ _ _ _ _ _ _ Hc)
    as (lc & Hsc & -> & _).
  rewrite Hsf in Hsr, Hsc. injection Hsr as <-. injection Hsc as <-.
  simpl. rewrite py_floor_to_Q, py_round_to_Q, py_ceil_to_Q.
  do 3 eexists. repeat (split; [reflexivity|]).
  match goal with
  | |- context [Qfloor ?q] =>
      pose proof (round_half_even_between q);
      pose proof (Qceiling_le_floor_succ q)
  end. lia.
Qed.

Lemma convert_floor_round_ceil_ordered_witness :
  exists vf wf vr wr vc wc,
    convert Sample.catalog (set_round_method rm_floor (Sample.flour_to_eggs rm_ceil))
      (PyFloat (1499 # 10)) None None Sample.flour_world = (inr vf, wf) /\
    convert Sample.catalog (set_round_method rm_round (Sample.flour_to_eggs rm_ceil))
      (PyFloat (1499 # 10)) None None Sample.flour_world = (inr vr, wr) /\
    convert Sample.catalog (set_round_method rm_ceil (Sample.flour_to_eggs rm_ceil))
      (PyFloat (1499 # 10)) None None Sample.flour_world = (inr vc, wc) /\
    exists zf zr zc,
      vf = PyInt zf /\ vr = PyInt zr /\ vc = PyInt zc /\
      zf <= zr /\ zr <= zc /\ zc <= zf + 1.
Proof.
  do 6 eexists.
  split; [cbv; reflexivity|]. split; [cbv; reflexivity|].
  split; [cbv; reflexivity|].
  eapply (convert_floor_round_ceil_ordered Sample.catalog
            (Sample.flour_to_eggs rm_ceil) (PyFloat (1499 # 10)) None None
            Sample.flour_world);
    cbv; reflexivity.
Defined.

(** X4: under round an exact half goes to the even neighbour.  If the run
    under "none" returns a value equal to [z + 1/2] for an integer [z], the
    run under round returns [z] when [z] is even and [z + 1] when it is
    odd. *)
Theorem convert_round_half_to_even
    (uom_service : Uom -> number -> Uom -> number) (self : UomConverter)
    (quantity : number) (uom_qty result_uom : option Uom) (w w' : World)
    (x : number) (z : Z) :
  convert uom_service (set_round_method rm_none self) quantity uom_qty result_uom w
    = (inr x, w') ->
  to_Q x == inject_Z z + (1 # 2) ->
  convert uom_service (set_round_method rm_round self) quantity uom_qty result_uom w
    = (inr (PyInt (if Z.even z then z else z + 1)), w').
Proof.
  intros Hrun Hhalf.
  rewrite (convert_returns_under rm_round _ _ _ _ _ _ _ _ Hrun).
  simpl. rewrite py_round_to_Q. do 3 f_equal.
  assert (Hf : Qfloor (to_Q x) = z).
  { destruct (Qfloor_bounds (to_Q x)) as [Hlo Hhi].
    assert (H1 : (inject_Z (Qfloor (to_Q x)) < inject_Z (z + 1))%Q)
      by (rewrite inject_Z_succ; lra).
    assert (H2 : (inject_Z z < inject_Z (Qfloor (to_Q x) + 1))%Q)
      by (rewrite inject_Z_succ; lra).
    rewrite <- Zlt_Qlt in H1, H2. lia. }
  unfold round_half_even. rewrite Hf.
  destruct (Qcompare_spec (to_Q x - inject_Z z) (1 # 2)); [reflexivity | |];
    exfalso; lra.
Qed.

Lemma convert_round_half_to_even_witness :
  exists x w',
    convert Sample.catalog (set_round_method rm_none (Sample.flour_to_eggs rm_ceil))
      (PyInt 250) None None Sample.flour_world = (inr x, w') /\
    to_Q x == inject_Z 2 + (1 # 2) /\
    convert Sample.catalog (set_round_method rm_round (Sample.flour_to_eggs rm_ceil))
      (PyInt 250) None None Sample.flour_world = (inr (PyInt 2), w').
Proof.
  eexists. eexists. split; [cbv; reflexivity|]. split; [reflexivity|].
  eapply (convert_round_half_to_even Sample.catalog
            (Sample.flour_to_eggs rm_ceil) (PyInt 250) None None
            Sample.flour_world _ _ 2); [cbv; reflexivity | reflexivity].
Defined.

(** ** Brackets *)

(** X5: the bracket of a line is closed on the right.  For a line of the
    converter, a normalized quantity that does not exceed its [max_qty] but
    exceeds every smaller [max_qty] of the converter (the bound itself
    included) selects a line with that same [max_qty]: once the unit checks
    pass no validation error is raised, and a value that is returned is
    computed from that line. *)
Theorem convert_bracket_right_closed
    (uom_service : Uom -> number -> Uom -> number) (self : UomConverter)
    (quantity : number) (uom_qty result_uom : option Uom) (w : World)
    (bracket : UomConverterLine) :
  input_unit_ok self uom_qty = true ->
  output_unit_ok self result_uom = true ->
  In bracket (uom_converter_line_table w) ->
  uom_converter_id bracket = conv_id self ->
  (to_Q (normalized_quantity uom_service self quantity uom_qty)
   <= max_qty bracket)%Q ->
  (forall other,
      In other (uom_converter_line_table w) ->
      uom_converter_id other = conv_id self ->
      (max_qty other < max_qty bracket)%Q ->
      (max_qty other
       < to_Q (normalized_quantity uom_service self quantity uom_qty))%Q) ->
  exists line,
    selected_line w self (normalized_quantity uom_service self quantity uom_qty)
      = Some line /\
    max_qty line == max_qty bracket /\
    (forall e w',
        convert uom_service self quantity uom_qty result_uom w <> (inl e, w')) /\
    (forall v w',
        convert uom_service self quantity uom_qty result_uom w = (inr v, w') ->
        v = apply_round_method (round_method self)
              (denormalized uom_service self result_uom
                 (affine line
                    (normalized_quantity uom_service self quantity uom_qty)))).
Proof.
  intros Hin Hout Hb Hown Hle Hbelow.
  destruct (selected_line_exists w self _ bracket Hb (conj Hown Hle))
    as (line & Hsel).
  destruct (selected_line_Some _ _ _ _ Hsel) as (Hl & (Hlown & Hlq) & Hmin).
  exists line. split; [exact Hsel|]. split; [|split].
  - apply Qle_antisym; [apply Hmin; [exact Hb | split; assumption]|].
    apply Qnot_lt_le. intro Hlt.
    apply (Qlt_not_le _ _ (Hbelow line Hl Hlown Hlt)). exact Hlq.
  - intros e w' Hrun.
    rewrite (convert_in_range _ _ _ _ _ _ line) in Hrun by assumption.
    discriminate.
  - intros v w' Hrun.
    rewrite (convert_in_range _ _ _ _ _ _ line) in Hrun by assumption.
    now injection Hrun as <- _.
Qed.

Lemma convert_bracket_right_closed_witness :
  exists line,
    selected_line Sample.parcel_world Sample.parcels
      (normalized_quantity Sample.catalog Sample.parcels (PyInt 20000)
         (Some Sample.gram)) = Some line /\
    max_qty line == 20 # 1 /\
    (forall e w',
        convert Sample.catalog Sample.parcels (PyInt 20000) (Some Sample.gram)
          None Sample.parcel_world <> (inl e, w')) /\
    (forall v w',
        convert Sample.catalog Sample.parcels (PyInt 20000) (Some Sample.gram)
          None Sample.parcel_world = (inr v, w') ->
        v = apply_round_method (round_method Sample.parcels)
              (denormalized Sample.catalog Sample.parcels None
                 (affine line
                    (normalized_quantity Sample.catalog Sample.parcels
                       (PyInt 20000) (Some Sample.gram))))).
Proof.
  apply (convert_bracket_right_closed Sample.catalog Sample.parcels (PyInt 20000)
           (Some Sample.gram) None Sample.parcel_world
           {| line_id := 3; uom_converter_id := 7;
              max_qty := 20 # 1; coefficient := 3 # 4; constant := 1 # 1 |});
    try reflexivity.
  - simpl. tauto.
  - cbv. discriminate.
  - intros other Hother Hown Hlt. simpl in Hother.
    destruct Hother as [<- | [<- | [<- | [<- | []]]]];
      try reflexivity; try discriminate Hown; cbv in Hlt; discriminate Hlt.
Defined.

(** X6: a converter without lines converts nothing.  If the table holds no
    line of the converter, every invocation that passes the category
    checks raises the out-of-range error. *)
Theorem convert_without_lines_out_of_range
    (uom_service : Uom -> number -> Uom -> number) (self : UomConverter)
    (quantity : number) (uom_qty result_uom : option Uom) (w : World) :
  input_unit_ok self uom_qty = true ->
  output_unit_ok self result_uom = true ->
  (forall line, In line (uom_converter_line_table w) ->
                uom_converter_id line <> conv_id self) ->
  convert uom_service self quantity uom_qty result_uom w =
    (inl (QuantityOutOfRange
            (normalized_quantity uom_service self quantity uom_qty)
            (uom_name (given_uom self uom_qty))
            (uom_name (wanted_uom self result_uom))
            (conv_name self)),
     log_calls w (normalization_calls self quantity uom_qty)).
Proof.
  intros Hin Hout Hnone.
  apply convert_out_of_range; try assumption.
  destruct (selected_line w self
              (normalized_quantity uom_service self quantity uom_qty))
    as [line|] eqn:Hsel; [|reflexivity].
  destruct (selected_line_Some _ _ _ _ Hsel) as (Hl & (Hown & _) & _).
  destruct (Hnone line Hl Hown).
Qed.

Lemma convert_without_lines_out_of_range_witness :
  convert Sample.catalog Sample.parcels (PyInt (-3)) None None
    {| uom_converter_table := [Sample.parcels];
       uom_converter_line_table := [Sample.flour_line];
       uom_calls := [] |} =
    (inl (QuantityOutOfRange (PyInt (-3)) "kg" "Units" "parcels"),
     {| uom_converter_table := [Sample.parcels];
        uom_converter_line_table := [Sample.flour_line];
        uom_calls := [] |}).
Proof.
  apply (convert_without_lines_out_of_range Sample.catalog Sample.parcels
           (PyInt (-3)) None None
           {| uom_converter_table := [Sample.parcels];
              uom_converter_line_table := [Sample.flour_line];
              uom_calls := [] |}); try reflexivity.
  intros line [<- | []]. discriminate.
Defined.

(** X7: the out-of-range error is raised only when it is true.  Whenever
    [convert] raises it, no line of the converter has a [max_qty] reaching
    the normalized quantity; the error carries that normalized quantity,
    with the name of the unit the caller gave and of the unit asked for. *)
Theorem convert_out_of_range_sound
    (uom_service : Uom -> number -> Uom -> number) (self : UomConverter)
    (quantity : number) (uom_qty result_uom : option Uom) (w w' : World)
    (q : number) (uom to_uom converter : string) :
  convert uom_service self quantity uom_qty result_uom w =
    (inl (QuantityOutOfRange q uom to_uom converter), w') ->
  q = normalized_quantity uom_service self quantity uom_qty /\
  uom = uom_name (given_uom self uom_qty) /\
  to_uom = uom_name (wanted_uom self result_uom) /\
  converter = conv_name self /\
  forall line,
    In line (uom_converter_line_table w) ->
    uom_converter_id line = conv_id self ->
    (max_qty line < to_Q q)%Q.
Proof.
  intros Hrun.
  destruct (input_unit_ok self uom_qty) eqn:Hin.
  2:{ rewrite convert_input_mismatch in Hrun by assumption. discriminate. }
  destruct (output_unit_ok self result_uom) eqn:Hout.
  2:{ rewrite convert_output_mismatch in Hrun by assumption. discriminate. }
  destruct (selected_line w self
              (normalized_quantity uom_service self quantity uom_qty))
    as [line|] eqn:Hsel.
  { rewrite (convert_in_range _ _ _ _ _ _ line) in Hrun by assumption.
    discriminate. }
  rewrite convert_out_of_range in Hrun by assumption.
  injection Hrun as <- <- <- <- _.
  repeat (split; [reflexivity|]).
  intros line Hl Hown. apply Qnot_le_lt. intro Hle.
  exact (selected_line_None _ _ _ Hsel line Hl (conj Hown Hle)).
Qed.

Lemma convert_out_of_range_sound_witness :
  exists w',
    convert Sample.catalog Sample.parcels (PyInt 60000) (Some Sample.gram)
      (Some Sample.dozen) Sample.parcel_world =
      (inl (QuantityOutOfRange (PyFloat (60000 # 1000)) "g" "Dozens" "parcels"),
       w') /\
    PyFloat (60000 # 1000)
      = normalized_quantity Sample.catalog Sample.parcels (PyInt 60000)
          (Some Sample.gram) /\
    "g"%string = uom_name (given_uom Sample.parcels (Some Sample.gram)) /\
    "Dozens"%string = uom_name (wanted_uom Sample.parcels (Some Sample.dozen)) /\
    "parcels"%string = conv_name Sample.parcels /\
    forall line,
      In line (uom_converter_line_table Sample.parcel_world) ->
      uom_converter_id line = conv_id Sample.parcels ->
      (max_qty line < to_Q (PyFloat (60000 # 1000)))%Q.
Proof.
  eexists. split; [cbv; reflexivity|].
  eapply (convert_out_of_range_sound Sample.catalog Sample.parcels (PyInt 60000)
            (Some Sample.gram) (Some Sample.dozen) Sample.parcel_world).
  cbv; reflexivity.
Defined.

(** X8: a run that raises makes no denormalization call, and one that
    fails the input check calls nothing.  After any error the tables are as
    before and the call log has grown by exactly the normalization call, if
    one was due, and by nothing when the input unit was rejected. *)
Theorem convert_failure_calls
    (uom_service : Uom -> number -> Uom -> number) (self : UomConverter)
    (quantity : number) (uom_qty result_uom : option Uom) (w w' : World)
    (e : ValidationError) :
  convert uom_service self quantity uom_qty result_uom w = (inl e, w') ->
  w' = log_calls w
         match e with
         | IncompatibleInputCategory _ _ _ _ => []
         | _ => normalization_calls self quantity uom_qty
         end.
Proof.
  intros Hrun.
  destruct (input_unit_ok self uom_qty) eqn:Hin.
  2:{ rewrite convert_input_mismatch in Hrun by assumption.
      injection Hrun as <- <-. now rewrite log_calls_nil. }
  destruct (output_unit_ok self result_uom) eqn:Hout.
  2:{ rewrite convert_output_mismatch in Hrun by assumption.
      injection Hrun as <- <-. reflexivity. }
  destruct (selected_line w self
              (normalized_quantity uom_service self quantity uom_qty))
    as [line|] eqn:Hsel.
  { rewrite (convert_in_range _ _ _ _ _ _ line) in Hrun by assumption.
    discriminate. }
  rewrite convert_out_of_range in Hrun by assumption.
  injection Hrun as <- <-. reflexivity.
Qed.

Lemma convert_failure_calls_witness :
  exists e w',
    convert Sample.catalog Sample.parcels (PyInt 60000) (Some Sample.gram)
      (Some Sample.dozen) Sample.parcel_world = (inl e, w') /\
    w' = log_calls Sample.parcel_world
           match e with
           | IncompatibleInputCategory _ _ _ _ => []
           | _ => normalization_calls Sample.parcels (PyInt 60000)
                    (Some Sample.gram)
           end.
Proof.
  eexists. eexists. split; [cbv; reflexivity|].
  eapply (convert_failure_calls Sample.catalog Sample.parcels (PyInt 60000)
            (Some Sample.gram) (Some Sample.dozen) Sample.parcel_world).
  cbv; reflexivity.
Defined.

(** ** What the outcome depends on *)

Lemma filter_domain_owned (cid : Z) (quantity : number)
    (table : list UomConverterLine) :
  filter (domain_holds [uom_converter_id_eq cid; max_qty_ge quantity]) table =
  filter (fun line => Qle_bool (to_Q quantity) (max_qty line))
         (filter (fun line => uom_converter_id line =? cid) table).
Proof.
  induction table as [|x rest IH]; [reflexivity|].
  unfold domain_holds in *. simpl in *.
  destruct (uom_converter_id x =? cid); simpl; [|exact IH].
  rewrite andb_true_r. destruct (Qle_bool _ _); now rewrite IH.
Qed.

(** The table enters the outcome through the selected line only. *)
Lemma convert_outcome_by_selected_line
    (uom_service : Uom -> number -> Uom -> number) (self : UomConverter)
    (quantity : number) (uom_qty result_uom : option Uom) (w1 w2 : World) :
  selected_line w1 self (normalized_quantity uom_service self quantity uom_qty)
  = selected_line w2 self (normalized_quantity uom_service self quantity uom_qty) ->
  fst (convert uom_service self quantity uom_qty result_uom w1)
  = fst (convert uom_service self quantity uom_qty result_uom w2).
Proof.
  intros Hsame.
  destruct (input_unit_ok self uom_qty) eqn:Hin.
  2:{ rewrite !convert_input_mismatch by assumption. reflexivity. }
  destruct (output_unit_ok self result_uom) eqn:Hout.
  2:{ rewrite !convert_output_mismatch by assumption. reflexivity. }
  destruct (selected_line w2 self
              (normalized_quantity uom_service self quantity uom_qty))
    as [line|] eqn:Hsel.
  - rewrite !(convert_in_range _ _ _ _ _ _ line) by assumption. reflexivity.
  - rewrite !convert_out_of_range by assumption. reflexivity.
Qed.

(** X9: lines of other converters do not matter.  Two line tables that
    hold the same lines of this converter, in the same order, give the same
    outcome, whatever else they hold. *)
Theorem convert_ignores_other_converters
    (uom_service : Uom -> number -> Uom -> number) (self : UomConverter)
    (quantity : number) (uom_qty result_uom : option Uom) (w1 w2 : World) :
  filter (fun line => uom_converter_id line =? conv_id self)
         (uom_converter_line_table w1)
  = filter (fun line => uom_converter_id line =? conv_id self)
           (uom_converter_line_table w2) ->
  fst (convert uom_service self quantity uom_qty result_uom w1)
  = fst (convert uom_service self quantity uom_qty result_uom w2).
Proof.
  intros Hown. apply convert_outcome_by_selected_line.
  unfold selected_line, search_lines.
  now rewrite !filter_domain_owned, Hown.
Qed.

Lemma convert_ignores_other_converters_witness :
  fst (convert Sample.catalog Sample.parcels (PyInt 6000) (Some Sample.gram)
         (Some Sample.dozen) Sample.parcel_world)
  = fst (convert Sample.catalog Sample.parcels (PyInt 6000) (Some Sample.gram)
           (Some Sample.dozen)
           {| uom_converter_table := [Sample.parcels];
              uom_converter_line_table :=
                Sample.flour_line :: Sample.parcel_lines ++ [Sample.flour_line];
              uom_calls := [] |}).
Proof.
  apply (convert_ignores_other_converters Sample.catalog Sample.parcels
           (PyInt 6000) (Some Sample.gram) (Some Sample.dozen)
           Sample.parcel_world
           {| uom_converter_table := [Sample.parcels];
              uom_converter_line_table :=
                Sample.flour_line :: Sample.parcel_lines ++ [Sample.flour_line];
              uom_calls := [] |}).
  reflexivity.
Defined.

(** X10: with distinct bounds the order of the table does not matter.  If
    no two lines of the converter share a [max_qty], any rearrangement of
    the line table gives the same outcome. *)
Theorem convert_independent_of_table_order
    (uom_service : Uom -> number -> Uom -> number) (self : UomConverter)
    (quantity : number) (uom_qty result_uom : option Uom) (w1 w2 : World) :
  Permutation (uom_converter_line_table w1) (uom_converter_line_table w2) ->
  (forall l1 l2,
      In l1 (uom_converter_line_table w1) ->
      In l2 (uom_converter_line_table w1) ->
      uom_converter_id l1 = conv_id self ->
      uom_converter_id l2 = conv_id self ->
      max_qty l1 == max_qty l2 -> l1 = l2) ->
  fst (convert uom_service self quantity uom_qty result_uom w1)
  = fst (convert uom_service self quantity uom_qty result_uom w2).
Proof.
  intros Hperm Hdistinct. apply convert_outcome_by_selected_line.
  destruct (selected_line w1 self
              (normalized_quantity uom_service self quantity uom_qty))
    as [l1|] eqn:Hs1;
    destruct (selected_line w2 self
                (normalized_quantity uom_service self quantity uom_qty))
      as [l2|] eqn:Hs2; try reflexivity.
  - destruct (selected_line_Some _ _ _ _ Hs1) as (Hin1 & Hq1 & Hmin1).
    destruct (selected_line_Some _ _ _ _ Hs2) as (Hin2 & Hq2 & Hmin2).
    assert (Hin2' : In l2 (uom_converter_line_table w1))
      by (eapply Permutation_in; [apply Permutation_sym; exact Hperm | exact Hin2]).
    assert (Hin1' : In l1 (uom_converter_line_table w2))
      by (eapply Permutation_in; [exact Hperm | exact Hin1]).
    f_equal. apply Hdistinct; try assumption; try apply Hq1; try apply Hq2.
    apply Qle_antisym; [apply Hmin1 | apply Hmin2]; assumption.
  - exfalso.
    destruct (selected_line_Some _ _ _ _ Hs1) as (Hin1 & Hq1 & _).
    refine (selected_line_None _ _ _ Hs2 l1 _ Hq1).
    eapply Permutation_in; [exact Hperm | exact Hin1].
  - exfalso.
    destruct (selected_line_Some _ _ _ _ Hs2) as (Hin2 & Hq2 & _).
    refine (selected_line_None _ _ _ Hs1 l2 _ Hq2).
    eapply Permutation_in; [apply Permutation_sym; exact Hperm | exact Hin2].
Qed.

Lemma convert_independent_of_table_order_witness :
  fst (convert Sample.catalog Sample.parcels (PyInt 6000) (Some Sample.gram)
         (Some Sample.dozen) Sample.parcel_world)
  = fst (convert Sample.catalog Sample.parcels (PyInt 6000) (Some Sample.gram)
           (Some Sample.dozen)
           {| uom_converter_table := [Sample.parcels];
              uom_converter_line_table := rev Sample.parcel_lines;
              uom_calls := [] |}).
Proof.
  apply (convert_independent_of_table_order Sample.catalog Sample.parcels
           (PyInt 6000) (Some Sample.gram) (Some Sample.dozen)
           Sample.parcel_world
           {| uom_converter_table := [Sample.parcels];
              uom_converter_line_table := rev Sample.parcel_lines;
              uom_calls := [] |}).
  - apply Permutation_rev.
  - intros l1 l2 H1 H2 O1 O2 E. simpl in H1, H2.
    destruct H1 as [<- | [<- | [<- | [<- | []]]]];
      destruct H2 as [<- | [<- | [<- | [<- | []]]]];
      try reflexivity; try discriminate O1; try discriminate O2;
      cbv in E; discriminate E.
Defined.

(** ** Composition with the unit catalog *)

(** X11: normalizing inside is normalizing outside.  For an input unit of
    the source category, [convert] returns a value exactly when it returns
    that value for the quantity already converted to the source unit and
    passed without input unit. *)
Theorem convert_normalizes_as_caller_would
    (uom_service : Uom -> number -> Uom -> number) (self : UomConverter)
    (quantity : number) (u : Uom) (result_uom : option Uom) (w : World)
    (v : number) :
  input_unit_ok self (Some u) = true ->
  (exists w', convert uom_service self quantity (Some u) result_uom w
                = (inr v, w'))
  <->
  (exists w', convert uom_service self
                (normalized_quantity uom_service self quantity (Some u))
                None result_uom w
                = (inr v, w')).
Proof.
  intros Hin. split; intros (w' & Hrun);
    destruct (convert_returns_inv _ _ _ _ _ _ _ _ Hrun)
      as (_ & Hout & line & Hsel & ->); eexists.
  - exact (convert_in_range uom_service self
             (normalized_quantity uom_service self quantity (Some u))
             None result_uom w line eq_refl Hout Hsel).
  - exact (convert_in_range uom_service self quantity (Some u) result_uom w
             line Hin Hout Hsel).
Qed.

Lemma convert_normalizes_as_caller_would_witness :
  input_unit_ok Sample.parcels (Some Sample.gram) = true /\
  ((exists w', convert Sample.catalog Sample.parcels (PyInt 6000)
                 (Some Sample.gram) (Some Sample.dozen) Sample.parcel_world
                 = (inr (PyFloat (22000 # 48000)), w'))
   <->
   (exists w', convert Sample.catalog Sample.parcels
                 (normalized_quantity Sample.catalog Sample.parcels (PyInt 6000)
                    (Some Sample.gram))
                 None (Some Sample.dozen) Sample.parcel_world
                 = (inr (PyFloat (22000 # 48000)), w'))).
Proof.
  split; [reflexivity|].
  apply (convert_normalizes_as_caller_would Sample.catalog Sample.parcels
           (PyInt 6000) Sample.gram (Some Sample.dozen) Sample.parcel_world).
  reflexivity.
Defined.

(** ** Monotonicity inside a bracket *)

Lemma to_Q_affine (line : UomConverterLine) (quantity : number) :
  to_Q (affine line quantity) = (to_Q quantity * coefficient line + constant line)%Q.
Proof. destruct quantity; reflexivity. Qed.

Lemma apply_round_method_resp_le (m : RoundMethod) (x y : number) :
  (to_Q x <= to_Q y)%Q ->
  (to_Q (apply_round_method m x) <= to_Q (apply_round_method m y))%Q.
Proof.
  intros Hxy. destruct m; simpl; [exact Hxy | | |].
  - rewrite !py_ceil_to_Q. simpl. rewrite <- Zle_Qle.
    now apply Qceiling_resp_le.
  - rewrite !py_round_to_Q. simpl. rewrite <- Zle_Qle.
    now apply round_half_even_resp_le.
  - rewrite !py_floor_to_Q. simpl. rewrite <- Zle_Qle.
    now apply Qfloor_resp_le.
Qed.

(** X12: inside one bracket with a non-negative coefficient, more gives no
    less.  When two runs without output unit are served by the same line
    and its coefficient is not negative, the run with the larger normalized
    quantity returns a value that is not smaller, under every rounding
    policy. *)
Theorem convert_monotone_within_line
    (uom_service : Uom -> number -> Uom -> number) (self : UomConverter)
    (q1 q2 : number) (uom_qty1 uom_qty2 : option Uom) (w w1 w2 : World)
    (v1 v2 : number) (line : UomConverterLine) :
  convert uom_service self q1 uom_qty1 None w = (inr v1, w1) ->
  convert uom_service self q2 uom_qty2 None w = (inr v2, w2) ->
  selected_line w self (normalized_quantity uom_service self q1 uom_qty1)
    = Some line ->
  selected_line w self (normalized_quantity uom_service self q2 uom_qty2)
    = Some line ->
  (0 <= coefficient line)%Q ->
  (to_Q (normalized_quantity uom_service self q1 uom_qty1)
   <= to_Q (normalized_quantity uom_service self q2 uom_qty2))%Q ->
  (to_Q v1 <= to_Q v2)%Q.
Proof.
  intros Hrun1 Hrun2 Hsel1 Hsel2 Hcoef Hle.
  destruct (convert_returns_inv _ _ _ _ _ _ _ _ Hrun1)
    as (_ & _ & l1 & Hl1 & ->).
  destruct (convert_returns_inv _ _ _ _ _ _ _ _ Hrun2)
    as (_ & _ & l2 & Hl2 & ->).
  rewrite Hsel1 in Hl1. injection Hl1 as <-.
  rewrite Hsel2 in Hl2. injection Hl2 as <-.
  apply apply_round_method_resp_le. simpl. rewrite !to_Q_affine.
  apply Qplus_le_compat; [|apply Qle_refl].
  now apply Qmult_le_compat_r.
Qed.

Lemma convert_monotone_within_line_witness :
  exists v1 w1 v2 w2,
    convert Sample.catalog (Sample.flour_to_eggs rm_round) (PyInt 149) None None
      Sample.flour_world = (inr v1, w1) /\
    convert Sample.catalog (Sample.flour_to_eggs rm_round) (PyInt 2)
      (Some Sample.kilogram) None Sample.flour_world = (inr v2, w2) /\
    (to_Q v1 <= to_Q v2)%Q.
Proof.
  do 4 eexists. split; [cbv; reflexivity|]. split; [cbv; reflexivity|].
  eapply (convert_monotone_within_line Sample.catalog
            (Sample.flour_to_eggs rm_round) (PyInt 149) (PyInt 2)
            None (Some Sample.kilogram) Sample.flour_world _ _ _ _
            Sample.flour_line);
    try (cbv; reflexivity); cbv; discriminate.
Defined.
